(** * Streamlit front end: GraphVizChart and DocString elements

    A shallow embedding of
      - frontend/lib/src/components/elements/GraphVizChart/GraphVizChart.tsx
      - the DocString element exercised by DocString.test.tsx
    together with the properties their specification states. *)

From Stdlib Require Import ZArith QArith Qcanon Qround String List Bool Lia.
From stdpp Require Import base decidable option list strings gmap numbers pretty.

#[local] Set Warnings "-register-all".

Local Open Scope string_scope.
Local Open Scope list_scope.

(* ===================================================================== *)
(** * JavaScript values used by the components *)
(* ===================================================================== *)

Module JS.

(** A JavaScript Number.  Finite values are exact rationals (every finite
    double is one); [Finite 0] is [+0] and [NegZero] is [-0]. *)
Inductive number : Type :=
| NaN
| NegZero
| Finite (q : Qc)
| Infinity (negative : bool).

Definition ofQ (q : Q) : number := Finite (Q2Qc q).
Definition ofZ (z : Z) : number := ofQ (inject_Z z).
Definition zero : number := ofZ 0.

#[export] Instance number_eq_dec : EqDecision number.
Proof. solve_decision. Defined.

(** [ToBoolean] on a Number: [0], [-0] and [NaN] are falsy. *)
Definition truthy (n : number) : bool :=
  match n with
  | NaN | NegZero => false
  | Finite q => negb (Qeq_bool q 0)
  | Infinity _ => true
  end.

(** [Boolean(n)] on a Number. *)
Definition Boolean (n : number) : bool := truthy n.

(** [a || b], at the three types the component uses it. *)
Definition lor (a b : number) : number :=
  if truthy a then a else b.

Definition lor_undef_l (a : option number) (b : number) : number :=
  match a with
  | Some n => if truthy n then n else b
  | None => b
  end.

Definition lor_undef_r (a : number) (b : option number) : option number :=
  if truthy a then Some a else b.

(** [Math.round]: the nearest integer, ties towards [+Infinity]; a result
    of zero keeps the sign of a negative argument. *)
Definition Math_round (n : number) : number :=
  match n with
  | Finite q =>
      let r := Qfloor (q + (1 # 2)) in
      if (r =? 0)%Z && negb (Qle_bool 0 q) then NegZero else ofZ r
  | _ => n
  end.

(** [Number.prototype.toString] where it prints a plain numeral: on the
    safe integers (magnitude below 2^53, where the shortest digits that
    identify the double are all the digits of the integer), on [NaN] and
    on the infinities.  The other Numbers are outside this definition. *)
Definition toStringIntegral (n : number) : option string :=
  match n with
  | NaN => Some "NaN"
  | NegZero => Some "0"
  | Infinity negative => Some (if negative then "-Infinity" else "Infinity")
  | Finite q =>
      if (Zpos (Qden q) =? 1)%Z && (Z.abs (Qnum q) <? 2 ^ 53)%Z
      then Some (pretty (Qnum q)) else None
  end.

(** Completion of a statement: normal, or an exception in flight. *)
Inductive Exception : Type :=
| TypeError (msg : string)
| Thrown (payload : string).

Inductive Completion (A : Type) : Type :=
| Normal (a : A)
| Throw (e : Exception).
Arguments Normal {A} a.
Arguments Throw {A} e.

(** Values compared by [Object.is] in a dependency array. *)
Inductive value : Type :=
| VNumber (n : number)
| VString (s : string).

#[export] Instance value_eq_dec : EqDecision value.
Proof. solve_decision. Defined.

(** [Object.is]: same value; [NaN] is itself, [+0] is not [-0]. *)
Definition Object_is (a b : value) : bool := bool_decide (a = b).

End JS.

Import JS.

(* ===================================================================== *)
(** * The part of React the component relies on *)
(* ===================================================================== *)

Module React.

(** [areHookInputsEqual]: the dependency arrays are walked together and
    compared entry by entry with [Object.is]. *)
Fixpoint areHookInputsEqual (nextDeps prevDeps : list value) : bool :=
  match nextDeps, prevDeps with
  | n :: nextDeps, p :: prevDeps =>
      if Object_is n p then areHookInputsEqual nextDeps prevDeps else false
  | _, _ => true
  end.

End React.

(* ===================================================================== *)
(** * GraphVizChart.tsx *)
(* ===================================================================== *)

Module GraphVizChart.

(** Modelled from the spec: the [GraphVizChart] proto message, declared
    outside the sources; these are the fields the component reads. *)
Record GraphVizChartProto : Type := {
  elementId : string;
  spec : string;
  useContainerWidth : bool;
}.

Record GraphVizChartProps : Type := {
  width : number;
  element : GraphVizChartProto;
  height : option number;          (* [height?: number] *)
}.

Record Dimensions : Type := {
  chartWidth : number;
  chartHeight : number;
}.

(** [const isFullScreen = (height = 0): boolean => Boolean(height)] *)
Definition isFullScreen (height : option number) : bool :=
  let height := default zero height in
  Boolean height.

(** The two [let] variables of one invocation of the component; the
    closures created by that invocation share them. *)
Record Locals : Type := {
  originalHeight : number;
  originalWidth : number;
}.

(** [let originalHeight = 0; let originalWidth = 0] *)
Definition initLocals : Locals :=
  {| originalHeight := zero; originalWidth := zero |}.

Definition chartId (p : GraphVizChartProps) : string :=
  "graphviz-chart-" ++ elementId (element p).

Definition getChartDimensions (p : GraphVizChartProps) (l : Locals)
  : Dimensions :=
  let isFull := isFullScreen (height p) in
  let chartWidth :=
    if isFull then width p
    else if useContainerWidth (element p) then width p
    else originalWidth l in
  let chartHeight :=
    if isFull then lor_undef_l (height p) (originalHeight l)
    else originalHeight l in
  {| chartWidth := chartWidth; chartHeight := chartHeight |}.

(** The SVG node the layout library leaves in the container: its
    bounding box and its attributes. *)
Record DOMRect : Type := {
  rect_width : number;
  rect_height : number;
}.

Record SVGGraphicsElement : Type := {
  getBBox : DOMRect;
  attributes : gmap string string;
}.

(** [select(node).attr(name, value)] *)
Definition attr (name val : string) (node : SVGGraphicsElement)
  : SVGGraphicsElement :=
  {| getBBox := getBBox node;
     attributes := <[name := val]> (attributes node) |}.

Section WithNumberToString.

(** [Number.prototype.toString], as used by a template literal. *)
Variable toString : number -> string.

Definition setSvgDimensions (p : GraphVizChartProps)
    (node : SVGGraphicsElement) (l : Locals)
  : Locals * SVGGraphicsElement :=
  let isFull := isFullScreen (height p) in
  let originalHeight := Math_round (rect_height (getBBox node)) in
  let originalWidth := Math_round (rect_width (getBBox node)) in
  ({| originalHeight := originalHeight; originalWidth := originalWidth |},
   attr "height" (if isFull then toString originalHeight ++ "pt" else "100%")
     (attr "width" (if isFull then toString originalWidth ++ "pt" else "100%")
        node)).

End WithNumberToString.

(** The element the component returns: the props it passes to the styled
    [div] of ./styled-components. *)
Record CSSProperties : Type := {
  style_width : number;
  style_height : option number;
}.

Record StyledGraphVizChart : Type := {
  className : string;
  id : string;
  style : CSSProperties;
}.

(** Lines 89-100: the markup, from the locals as they stand. *)
Definition markup (p : GraphVizChartProps) (l : Locals)
  : StyledGraphVizChart :=
  let elementDimensions := getChartDimensions p l in
  let width := lor (chartWidth elementDimensions) (width p) in
  let height := lor_undef_r (chartHeight elementDimensions) (height p) in
  {| className := "graphviz stGraphVizChart";
     id := chartId p;
     style := {| style_width := width; style_height := height |} |}.

(** One invocation of the component: the locals are fresh, and nothing
    writes them before line 89 (the effect runs after the function has
    returned, its [end] listener later still). *)
Definition GraphVizChart (p : GraphVizChartProps) : StyledGraphVizChart :=
  markup p initLocals.

(** The dependency array of the effect: [[propWidth, element.spec]]. *)
Definition effectDeps (p : GraphVizChartProps) : list value :=
  [VNumber (width p); VString (spec (element p))].

(** ** The effect, the layout library and the commit of a render *)

(** What an [end] listener closes over: the props of the invocation that
    registered it and that invocation's locals. *)
Record Listener : Type := {
  listener_props : GraphVizChartProps;
  listener_locals : Locals;
}.

Section Runtime.

(** d3-graphviz is outside the component: its renderer handles, its
    private state and what its calls do are arbitrary. *)
Context {Graph LibraryState : Type}.
Variable toString : number -> string.
Variable graphviz :
  string -> LibraryState -> Completion Graph * LibraryState.
Variable renderDot :
  Graph -> string -> LibraryState -> Completion Graph * LibraryState.

Record World : Type := {
  library : LibraryState;
  svg : gmap string SVGGraphicsElement;  (* [#id > svg], by container id *)
  logged : list Exception;      (* what [logError] received, oldest first *)
  listeners : gmap string Listener;
    (* the [end] listener of the renderer of each container, by container id *)
}.

(** Statements: a world transformer that completes normally or throws. *)
Definition M (A : Type) : Type := World -> Completion A * World.

#[local] Instance M_ret : MRet M := fun A a w => (Normal a, w).
#[local] Instance M_bind : MBind M := fun A B k m w =>
  match m w with
  | (Normal a, w') => k a w'
  | (Throw e, w') => (Throw e, w')
  end.

(** [try { body } catch (error) { handler(error) }] *)
Definition try_catch {A} (body : M A) (handler : Exception -> M A) : M A :=
  fun w =>
    match body w with
    | (Normal a, w') => (Normal a, w')
    | (Throw e, w') => handler e w'
    end.

Definition call {A} (f : LibraryState -> Completion A * LibraryState)
  : M A :=
  fun w =>
    let '(r, lib) := f (library w) in
    (r, {| library := lib; svg := svg w; logged := logged w;
           listeners := listeners w |}).

(** [.on("end", listener)] on the renderer of the listener's container.
    d3-graphviz keeps one renderer per container, and a renderer has one
    listener for [end]: an earlier one is replaced. *)
Definition on_end (listener : Listener) : M unit :=
  fun w =>
    (Normal tt,
     {| library := library w; svg := svg w; logged := logged w;
        listeners :=
          <[chartId (listener_props listener) := listener]> (listeners w) |}).

(** Modelled from the spec: [logError] of util/log, which is not among the
    sources; the error is logged, and nothing else happens. *)
Definition logError (error : Exception) : M unit :=
  fun w =>
    (Normal tt,
     {| library := library w; svg := svg w;
        logged := logged w ++ [error]; listeners := listeners w |}).

(** The calls into the layout library:
    [graphviz(`#${chartId}`).zoom(false).fit(true).scale(1)], then
    [graph.renderDot(element.spec)]. *)
Definition layout (p : GraphVizChartProps) : M Graph :=
  graph ← call (graphviz ("#" ++ chartId p));
  call (renderDot graph (spec (element p))).

(** The function passed to [useEffect].  It returns [undefined]: there
    is no clean-up function. *)
Definition effect (p : GraphVizChartProps) (l : Locals)
  : M (option (M unit)) :=
  try_catch
    (graph ← layout p;
     on_end {| listener_props := p; listener_locals := l |})
    (fun error => logError error);;
  mret None.

(** The [end] listener:
    [const node = select(`#${chartId} > svg`).node();
     setSvgDimensions(node as SVGGraphicsElement)].
    With no such node, [node.getBBox()] throws. *)
Definition onEnd (listener : Listener) : M Locals :=
  fun w =>
    let p := listener_props listener in
    match svg w !! chartId p with
    | None => (Throw (TypeError "node is null"), w)
    | Some node =>
        let '(l, node) :=
          setSvgDimensions toString p node (listener_locals listener) in
        (Normal l,
         {| library := library w;
            svg := <[chartId p := node]> (svg w);
            logged := logged w; listeners := listeners w |})
    end.

(** What React keeps for the effect hook between renders. *)
Record Hook : Type := {
  memoizedDeps : list value;
  destroy : option (M unit);
}.

(** First render: the component function runs, then its effect. *)
Definition mount (p : GraphVizChartProps)
  : M (StyledGraphVizChart * Hook) :=
  let rendered := GraphVizChart p in
  destroy ← effect p initLocals;
  mret (rendered,
        {| memoizedDeps := effectDeps p; destroy := destroy |}).

(** Whether a re-render with props [p] runs the effect again. *)
Definition effectRuns (hook : Hook) (p : GraphVizChartProps) : bool :=
  negb (React.areHookInputsEqual (effectDeps p) (memoizedDeps hook)).

(** Re-render: the effect runs again when a dependency changed, after
    the clean-up of the previous run when there is one. *)
Definition update (hook : Hook) (p : GraphVizChartProps)
  : M (StyledGraphVizChart * Hook) :=
  let rendered := GraphVizChart p in
  if effectRuns hook p then
    match destroy hook with Some cleanup => cleanup | None => mret tt end;;
    destroy ← effect p initLocals;
    mret (rendered,
          {| memoizedDeps := effectDeps p; destroy := destroy |})
  else
    mret (rendered,
          {| memoizedDeps := effectDeps p; destroy := destroy hook |}).

End Runtime.

End GraphVizChart.

(* ===================================================================== *)
(** * Rendered markup and the queries of the test file *)
(* ===================================================================== *)

Module Dom.

Inductive Node : Type :=
| Text (data : string)
| Element (tag : string) (testid : option string) (children : list Node).

(** [data-testid] equals [id]. *)
Definition hasTestId (id : string) (n : Node) : bool :=
  match n with
  | Element _ (Some t) _ => String.eqb t id
  | _ => false
  end.

Definition isText (s : string) (n : Node) : bool :=
  match n with
  | Text data => String.eqb data s
  | Element _ _ _ => false
  end.

(** The element's own text is [s]. *)
Definition hasText (s : string) (n : Node) : bool :=
  match n with
  | Text _ => false
  | Element _ _ children => existsb (isText s) children
  end.

(** All nodes below and including [n] that satisfy [f], in document
    order. *)
Fixpoint queryAll (f : Node -> bool) (n : Node) : list Node :=
  (if f n then [n] else []) ++
  match n with
  | Text _ => []
  | Element _ _ children => flat_map (queryAll f) children
  end.

(** [screen.queryAllByTestId] and [screen.queryAllByText] over what was
    rendered. *)
Definition queryAllByTestId (id : string) (screen : list Node) : list Node :=
  flat_map (queryAll (hasTestId id)) screen.

Definition queryAllByText (s : string) (screen : list Node) : list Node :=
  flat_map (queryAll (hasText s)) screen.

(** Every text shown, in document order. *)
Fixpoint texts (n : Node) : list string :=
  match n with
  | Text data => [data]
  | Element _ _ children => flat_map texts children
  end.

End Dom.

(* ===================================================================== *)
(** * DocString.tsx, as DocString.test.tsx and the specification have it *)
(* ===================================================================== *)

Module DocString.

Import Dom.

(** Modelled from the spec: the [IMember] and [DocString] proto messages,
    declared outside the sources; every field is optional. *)
Module IMember.
Record t : Type := {
  name : option string;
  type : option string;
  value : option string;
  docString : option string;
}.
End IMember.

Record DocStringProto : Type := {
  name : option string;
  type : option string;
  value : option string;
  docString : option string;
  members : list IMember.t;
}.

(** Modelled from the spec: a field is present when it is defined and not
    the empty string; an absent, lacking or empty field is one that is
    not. *)
Definition present (field : option string) : bool :=
  match field with
  | Some s => negb (String.eqb s "")
  | None => false
  end.

Definition text (field : option string) : string := default "" field.

(** Modelled from the spec: a region that is omitted when its field is
    missing, [field ? <tag data-testid=...>{field}</tag> : null]. *)
Definition optional (tag testid : string) (field : option string)
  : list Node :=
  if present field then [Element tag (Some testid) [Text (text field)]]
  else [].

(** Modelled from the spec: the docString, or the placeholder text for a
    missing one, [docString || "No docs available"]. *)
Definition docs (docString : option string) : string :=
  if present docString then text docString else "No docs available".

(** Modelled from the spec: the [Member] component of DocString.tsx, which
    the test file imports and which is not among the sources.  The value
    has priority over the docString; with neither, a placeholder says
    that no docs are available; name and type are shown only when
    present.  The test ids are those the test file queries. *)
Definition Member (member : IMember.t) : Node :=
  Element "tr" (Some "stMember")
    [ Element "td" None
        (optional "span" "stMemberDocName" (IMember.name member) ++
         optional "span" "stMemberDocType" (IMember.type member));
      Element "td" None
        [ if present (IMember.value member)
          then Element "span" (Some "stMemberDocValue")
                 [Text (text (IMember.value member))]
          else Element "span" (Some "stMemberDocString")
                 [Text (docs (IMember.docString member))] ] ].

(** Modelled from the spec: the header of the [DocString] component, with
    name, type and value each shown only when present. *)
Definition header (element : DocStringProto) : Node :=
  Element "div" None
    (optional "span" "stDocstringDocName" (name element) ++
     optional "span" "stDocstringDocType" (type element) ++
     optional "span" "stDocstringDocValue" (value element)).

(** Modelled from the spec: the members table of the [DocString]
    component, one row per member, omitted when there are no members. *)
Definition membersTable (members : list IMember.t) : Node :=
  Element "table" (Some "stDocstringMembersTable")
    [Element "tbody" None (map Member members)].

(** Modelled from the spec: the members table is omitted when the
    sequence of members is empty. *)
Definition table_part (element : DocStringProto) : list Node :=
  match members element with
  | [] => []
  | _ :: _ => [membersTable (members element)]
  end.

(** Modelled from the spec: the outer container of the [DocString]
    component, DocString.tsx not being among the sources.  It holds the
    header and the docString, or the placeholder for an empty one.  That
    it is rendered for every descriptor is read off the test file: the
    render of line 87, without name, value or type, is still on the
    screen during the first test, which counts two containers (line 43),
    and after the clean-up a render counts one (line 57). *)
Definition container_part (element : DocStringProto) : list Node :=
  [ Element "div" (Some "stDocstring")
      [ header element;
        Element "div" (Some "stDocstringDocstring")
          [Text (docs (docString element))] ] ].

(** Modelled from the spec: the [DocString] component of DocString.tsx,
    which is not among the sources: the container, followed by the
    members table, which is rendered exactly when there are members. *)
Definition DocString (element : DocStringProto) : list Node :=
  container_part element ++ table_part element.

End DocString.

(* ===================================================================== *)
(** * Inputs for the examples *)
(* ===================================================================== *)

Module Samples.

Import GraphVizChart.

(** A printer that is [Number.prototype.toString] on the integral Numbers,
    which is where the examples use it. *)
Definition printer (n : number) : string := default "" (toStringIntegral n).

Definition graph : GraphVizChartProto :=
  {| elementId := "1"; spec := "digraph { a -> b }";
     useContainerWidth := false |}.

Definition inlineProps : GraphVizChartProps :=
  {| width := ofZ 704; element := graph; height := None |}.

Definition fullScreenProps : GraphVizChartProps :=
  {| width := ofZ 1280; element := graph; height := Some (ofZ 720) |}.

Definition zeroHeightProps : GraphVizChartProps :=
  {| width := ofZ 704; element := graph; height := Some zero |}.

(** The node d3-graphviz leaves behind, 123.4 by 56.5 user units. *)
Definition rendered : SVGGraphicsElement :=
  {| getBBox := {| rect_width := ofQ (1234 # 10);
                   rect_height := ofQ (565 # 10) |};
     attributes := {[ "viewBox" := "0 0 123.4 56.5" ]} |}.

Definition laidOut : @World unit :=
  {| library := tt; svg := {[ "graphviz-chart-1" := rendered ]};
     logged := []; listeners := ∅ |}.

Definition idle : @World unit :=
  {| library := tt; svg := ∅; logged := []; listeners := ∅ |}.

(** A layout library that rejects every DOT source. *)
Definition failing_graphviz (selector : string) (lib : unit)
  : Completion unit * unit := (Normal tt, lib).

Definition failing_renderDot (graph : unit) (dot : string) (lib : unit)
  : Completion unit * unit := (Throw (Thrown "syntax error in line 1"), lib).

(** A layout library that accepts every DOT source. *)
Definition working_graphviz (selector : string) (lib : unit)
  : Completion unit * unit := (Normal tt, lib).

Definition working_renderDot (graph : unit) (dot : string) (lib : unit)
  : Completion unit * unit := (Normal tt, lib).

(** Another chart on the same page. *)
Definition otherGraph : GraphVizChartProto :=
  {| elementId := "2"; spec := "graph { c -- d }";
     useContainerWidth := true |}.

(** [getProps()] of the test file, and the members of its tests. *)
Definition getProps : DocString.DocStringProto :=
  {| DocString.name := Some "st.balloons";
     DocString.type := Some "method";
     DocString.value := Some "streamlit.balloons()";
     DocString.docString := Some "docstring";
     DocString.members := [] |}.

Definition member (n : string) (t v d : option string) : DocString.IMember.t :=
  {| DocString.IMember.name := Some n; DocString.IMember.type := t;
     DocString.IMember.value := v; DocString.IMember.docString := d |}.

(** The props of "should render empty when" and of "should render
    members". *)
Definition without_header : DocString.DocStringProto :=
  {| DocString.name := None; DocString.type := None;
     DocString.value := None; DocString.docString := Some "docstring";
     DocString.members := [] |}.

Definition with_members : DocString.DocStringProto :=
  {| DocString.name := Some "st.balloons";
     DocString.type := Some "method";
     DocString.value := Some "streamlit.balloons()";
     DocString.docString := Some "docstring";
     DocString.members :=
       [ member "member1" (Some "type1") (Some "value1") None;
         member "member2" (Some "type2") (Some "value2") None ] |}.


End Samples.

(* ===================================================================== *)
(** * Properties of the JavaScript fragment *)
(* ===================================================================== *)

Module JSFacts.

Example round_examples :
  Math_round (ofQ (1234 # 10)) = ofZ 123 /\
  Math_round (ofQ (247 # 2)) = ofZ 124 /\
  Math_round (ofQ (-1 # 2)) = NegZero /\
  Math_round (ofQ (-3 # 2)) = ofZ (-1) /\
  Math_round NaN = NaN.
Proof. repeat split; vm_compute; reflexivity. Qed.

Example toString_examples :
  toStringIntegral (ofZ 123) = Some "123" /\
  toStringIntegral NegZero = Some "0" /\
  toStringIntegral (ofQ (1 # 2)) = None.
Proof. repeat split; vm_compute; reflexivity. Qed.

Lemma truthy_zero : truthy zero = false.
Proof. reflexivity. Qed.

Lemma lor_falsy a b : truthy a = false -> lor a b = b.
Proof. unfold lor. now intros ->. Qed.

Lemma lor_same a : lor a a = a.
Proof. unfold lor. now destruct (truthy a). Qed.

Lemma Object_is_true a b : Object_is a b = true <-> a = b.
Proof. unfold Object_is. apply bool_decide_eq_true. Qed.

Lemma Object_is_false a b : Object_is a b = false <-> a <> b.
Proof. unfold Object_is. apply bool_decide_eq_false. Qed.

End JSFacts.

(* ===================================================================== *)
(** * Properties of GraphVizChart *)
(* ===================================================================== *)

Module GraphVizChartSpec.

Import GraphVizChart JSFacts.

(** ** Sizing of the SVG node *)

Lemma attr_lookup_same name val node :
  attributes (attr name val node) !! name = Some val.
Proof. unfold attr; simpl. apply lookup_insert_eq. Qed.

Lemma attr_lookup_other name val node other :
  name <> other ->
  attributes (attr name val node) !! other = attributes node !! other.
Proof. intros Hne. unfold attr; simpl. by apply lookup_insert_ne. Qed.

Lemma attr_getBBox name val node :
  getBBox (attr name val node) = getBBox node.
Proof. reflexivity. Qed.

(** [setSvgDimensions] measures the bounding box, rounds both sides, and
    writes them in points when full screen, ["100%"] otherwise. *)
Lemma setSvgDimensions_spec toString p node l :
  let measuredWidth := Math_round (rect_width (getBBox node)) in
  let measuredHeight := Math_round (rect_height (getBBox node)) in
  let '(l', node') := setSvgDimensions toString p node l in
  originalWidth l' = measuredWidth /\
  originalHeight l' = measuredHeight /\
  attributes node' !! "width" =
    Some (if isFullScreen (height p)
          then toString measuredWidth +:+ "pt" else "100%") /\
  attributes node' !! "height" =
    Some (if isFullScreen (height p)
          then toString measuredHeight +:+ "pt" else "100%") /\
  getBBox node' = getBBox node /\
  (forall other, other <> "width" -> other <> "height" ->
     attributes node' !! other = attributes node !! other).
Proof.
  unfold setSvgDimensions. cbv beta iota zeta.
  repeat split.
  - rewrite attr_lookup_other by done. apply attr_lookup_same.
  - apply attr_lookup_same.
  - intros other Hw Hh. by rewrite !attr_lookup_other.
Qed.

(** C4.  When the layout ends and the rendered SVG node is in the
    container, the listener sets the node's [width] and [height]
    attributes: in full-screen mode to the measured (rounded) width and
    height of its bounding box followed by ["pt"], in inline mode both to
    ["100%"]; the locals receive the measures. *)
Theorem svg_sized_in_points_or_percent
    {LibraryState : Type} (toString : number -> string)
    (listener : Listener) (w : @World LibraryState)
    (node : SVGGraphicsElement) :
  let p := listener_props listener in
  let measuredWidth := Math_round (rect_width (getBBox node)) in
  let measuredHeight := Math_round (rect_height (getBBox node)) in
  svg w !! chartId p = Some node ->
  exists w' node',
    onEnd toString listener w =
      (Normal {| originalHeight := measuredHeight;
                 originalWidth := measuredWidth |}, w') /\
    svg w' !! chartId p = Some node' /\
    attributes node' !! "width" =
      Some (if isFullScreen (height p)
            then toString measuredWidth +:+ "pt" else "100%") /\
    attributes node' !! "height" =
      Some (if isFullScreen (height p)
            then toString measuredHeight +:+ "pt" else "100%").
Proof.
  intros p mw mh Hnode.
  pose proof (setSvgDimensions_spec toString p node
                (listener_locals listener)) as Hspec.
  unfold onEnd. fold p. rewrite Hnode.
  destruct (setSvgDimensions toString p node (listener_locals listener))
    as [l' node'] eqn:Hset.
  simpl in Hspec. destruct Hspec as (Hw & Hh & Haw & Hah & _).
  eexists _, node'. split; [|split; [|split]].
  - destruct l' as [oh ow]; simpl in *. by subst.
  - simpl. apply lookup_insert_eq.
  - exact Haw.
  - exact Hah.
Qed.

Lemma svg_sized_in_points_witness :
  exists w' node',
    onEnd Samples.printer
      {| listener_props := Samples.fullScreenProps;
         listener_locals := initLocals |} Samples.laidOut =
      (Normal {| originalHeight := ofZ 57; originalWidth := ofZ 123 |},
       w') /\
    svg w' !! "graphviz-chart-1" = Some node' /\
    attributes node' !! "width" = Some "123pt" /\
    attributes node' !! "height" = Some "57pt".
Proof.
  exact (svg_sized_in_points_or_percent Samples.printer
           {| listener_props := Samples.fullScreenProps;
              listener_locals := initLocals |}
           Samples.laidOut Samples.rendered eq_refl).
Defined.

Example svg_sized_inline :
  attributes
    (setSvgDimensions Samples.printer Samples.inlineProps Samples.rendered
       initLocals).2 !! "width" = Some "100%" /\
  attributes
    (setSvgDimensions Samples.printer Samples.inlineProps Samples.rendered
       initLocals).2 !! "height" = Some "100%" /\
  attributes
    (setSvgDimensions Samples.printer Samples.inlineProps Samples.rendered
       initLocals).2 !! "viewBox" = Some "0 0 123.4 56.5".
Proof. repeat split; vm_compute; reflexivity. Qed.

(** ** The effect *)

Section Effect.

Context {Graph LibraryState : Type}.
Variable graphviz :
  string -> LibraryState -> Completion Graph * LibraryState.
Variable renderDot :
  Graph -> string -> LibraryState -> Completion Graph * LibraryState.

#[local] Abbreviation layout := (GraphVizChart.layout graphviz renderDot).
#[local] Abbreviation effect := (GraphVizChart.effect graphviz renderDot).
#[local] Abbreviation mount := (GraphVizChart.mount graphviz renderDot).
#[local] Abbreviation update := (GraphVizChart.update graphviz renderDot).

(** The library reaches neither the log, the listeners nor (during the
    call) the container. *)
Lemma layout_frame p (w : World) :
  logged (layout p w).2 = logged w /\
  svg (layout p w).2 = svg w /\
  listeners (layout p w).2 = listeners w.
Proof.
  unfold GraphVizChart.layout, mbind, M_bind, call.
  destruct (graphviz _ (library w)) as [[g|e] lib1]; simpl; [|done].
  destruct (renderDot g _ lib1) as [r lib2]; simpl; done.
Qed.

(** What the effect does, by the outcome of the layout calls. *)
Lemma effect_unfold p l (w : World) :
  effect p l w =
    match layout p w with
    | (Normal _, w1) =>
        (Normal None,
         {| library := library w1; svg := svg w1; logged := logged w1;
            listeners :=
              <[chartId p :=
                  {| listener_props := p; listener_locals := l |}]>
                (listeners w1) |})
    | (Throw e, w1) =>
        (Normal None,
         {| library := library w1; svg := svg w1;
            logged := logged w1 ++ [e]; listeners := listeners w1 |})
    end.
Proof.
  unfold GraphVizChart.effect, try_catch, mbind, M_bind, mret, M_ret,
    on_end, logError.
  destruct (layout p w) as [[g|e] w1]; reflexivity.
Qed.

(** The effect always completes normally, with no clean-up function. *)
Lemma effect_completes p l (w : World) :
  exists w', effect p l w = (Normal None, w').
Proof.
  rewrite effect_unfold.
  destruct (layout p w) as [[g|e] w1]; by eexists.
Qed.

Lemma mount_unfold p (w : World) :
  mount p w =
    (Normal (GraphVizChart p,
             {| memoizedDeps := effectDeps p; destroy := None |}),
     (effect p initLocals w).2).
Proof.
  unfold GraphVizChart.mount, mbind, M_bind, mret, M_ret.
  destruct (effect_completes p initLocals w) as (w' & ->).
  reflexivity.
Qed.

(** C5.  When a call into the layout library throws, the exception is
    caught and logged: the effect completes normally, the component has
    returned its container markup, no listener is registered and the
    container's SVG is left as it was. *)
Theorem layout_exception_caught_and_logged
    p l (w : World) (e : Exception) :
  (layout p w).1 = Throw e ->
  exists w' w'',
    effect p l w = (Normal None, w') /\
    logged w' = logged w ++ [e] /\
    svg w' = svg w /\
    listeners w' = listeners w /\
    mount p w =
      (Normal (GraphVizChart p,
               {| memoizedDeps := effectDeps p; destroy := None |}),
       w'') /\
    logged w'' = logged w ++ [e] /\
    className (GraphVizChart p) = "graphviz stGraphVizChart" /\
    id (GraphVizChart p) = chartId p.
Proof.
  intros Hthrow.
  destruct (layout_frame p w) as (Hlog & Hsvg & Hlis).
  rewrite mount_unfold, !effect_unfold.
  destruct (layout p w) as [[g|e'] w1]; simpl in *; [done|].
  injection Hthrow as ->.
  eexists _, _. repeat split; simpl; congruence.
Qed.

(** ** The dependency array *)

Lemma effectRuns_iff (hook : Hook) prev next :
  memoizedDeps hook = effectDeps prev ->
  @effectRuns LibraryState hook next = true <->
  width next <> width prev \/
  spec (element next) <> spec (element prev).
Proof.
  intros Hdeps. unfold effectRuns. rewrite Hdeps.
  unfold effectDeps; simpl.
  destruct (Object_is (VNumber (width next)) (VNumber (width prev)))
    eqn:Hw;
    [destruct (Object_is (VString (spec (element next)))
                         (VString (spec (element prev)))) eqn:Hs|];
    simpl.
  - apply Object_is_true in Hw, Hs. split; [done|].
    intros [H|H]; congruence.
  - apply Object_is_false in Hs. split; [|done].
    intros _. right. congruence.
  - apply Object_is_false in Hw. split; [|done].
    intros _. left. congruence.
Qed.

(** C6.  After a render with props [prev], a re-render with props
    [next] runs the effect again exactly when the width or the DOT spec
    changed.  When it runs, it runs within the same commit, with nothing
    before it: the hook never holds a clean-up function.  When it does
    not run, nothing happens. *)
Theorem effect_reruns_iff_width_or_spec_changed prev next (w : World) :
  let hook := {| memoizedDeps := effectDeps prev; destroy := None |} in
  (effectRuns hook next = true <->
     width next <> width prev \/
     spec (element next) <> spec (element prev)) /\
  (mount prev w).1 = Normal (GraphVizChart prev, hook) /\
  exists w',
    update hook next w =
      (Normal (GraphVizChart next,
               {| memoizedDeps := effectDeps next; destroy := None |}),
       w') /\
    (if effectRuns hook next
     then effect next initLocals w = (Normal None, w')
     else w' = w).
Proof.
  intros hook. split; [by apply effectRuns_iff|].
  split; [by rewrite mount_unfold|].
  unfold GraphVizChart.update.
  destruct (effectRuns hook next) eqn:Hruns.
  - destruct (effect_completes next initLocals w) as (w' & Heff).
    exists w'. unfold mbind, M_bind, mret, M_ret; simpl.
    rewrite Heff. done.
  - exists w. done.
Qed.

End Effect.

Lemma layout_exception_witness :
  exists w' w'',
    effect Samples.failing_graphviz Samples.failing_renderDot
      Samples.inlineProps initLocals Samples.idle = (Normal None, w') /\
    logged w' = [Thrown "syntax error in line 1"] /\
    svg w' = ∅ /\
    listeners w' = ∅ /\
    mount Samples.failing_graphviz Samples.failing_renderDot
      Samples.inlineProps Samples.idle =
      (Normal (GraphVizChart Samples.inlineProps,
               {| memoizedDeps := effectDeps Samples.inlineProps;
                  destroy := None |}),
       w'') /\
    logged w'' = [Thrown "syntax error in line 1"] /\
    className (GraphVizChart Samples.inlineProps) =
      "graphviz stGraphVizChart" /\
    id (GraphVizChart Samples.inlineProps) = "graphviz-chart-1".
Proof.
  exact (layout_exception_caught_and_logged
           Samples.failing_graphviz Samples.failing_renderDot
           Samples.inlineProps initLocals Samples.idle
           (Thrown "syntax error in line 1") eq_refl).
Defined.

(** ** Full-screen mode and the container's size *)

Lemma isFullScreen_falsy h : truthy h = false -> isFullScreen (Some h) = false.
Proof. done. Qed.

(** C9, amended.  A height of 0 selects the same mode as an absent
    height: [isFullScreen] is false for both, the chart dimensions and the
    sizing of the SVG node are the same, the SVG attributes are ["100%"]
    and the container's width is the same.  The container's style height
    is the one difference: 0 for a height of 0, undefined for an absent
    one. *)
Theorem height_zero_selects_inline_mode
    (toString : number -> string) (w : number) (e : GraphVizChartProto)
    (node : SVGGraphicsElement) (l : Locals) :
  let p0 := {| width := w; element := e; height := Some zero |} in
  let pA := {| width := w; element := e; height := None |} in
  isFullScreen (Some zero) = false /\
  isFullScreen None = false /\
  getChartDimensions p0 l = getChartDimensions pA l /\
  chartWidth (getChartDimensions p0 l) =
    (if useContainerWidth e then w else originalWidth l) /\
  setSvgDimensions toString p0 node l =
    setSvgDimensions toString pA node l /\
  attributes (setSvgDimensions toString p0 node l).2 !! "width" =
    Some "100%" /\
  attributes (setSvgDimensions toString p0 node l).2 !! "height" =
    Some "100%" /\
  style_width (style (GraphVizChart p0)) =
    style_width (style (GraphVizChart pA)) /\
  style_height (style (GraphVizChart p0)) = Some zero /\
  style_height (style (GraphVizChart pA)) = None.
Proof.
  intros p0 pA.
  pose proof (setSvgDimensions_spec toString p0 node l) as Hspec.
  destruct (setSvgDimensions toString p0 node l) as [l' node'] eqn:Hset.
  simpl in Hspec. destruct Hspec as (_ & _ & Hw & Hh & _).
  repeat split; try reflexivity; try assumption.
  by rewrite <- Hset.
Qed.

(** Every falsy measure of the width gives way to the width prop. *)
Lemma markup_width_falsy p l :
  truthy (originalWidth l) = false ->
  style_width (style (markup p l)) = width p.
Proof.
  intros Hfalsy. unfold markup, getChartDimensions; simpl.
  destruct (isFullScreen (height p)); [apply lor_same|].
  destruct (useContainerWidth (element p)); [apply lor_same|].
  by apply lor_falsy.
Qed.

(** The locals are fresh in every invocation, so the container's width
    is the width prop in every render. *)
Lemma GraphVizChart_width p :
  style_width (style (GraphVizChart p)) = width p.
Proof. by apply markup_width_falsy. Qed.

Lemma GraphVizChart_height p :
  style_height (style (GraphVizChart p)) = height p.
Proof.
  unfold GraphVizChart, markup, getChartDimensions, isFullScreen; simpl.
  destruct (height p) as [h|]; simpl; [|done].
  unfold Boolean, lor_undef_r.
  destruct (truthy h) eqn:Hh; simpl; by rewrite ?Hh.
Qed.

(** C10.  While the measured original width is 0, the container's style
    width is the width prop in every mode: where the computed chart width
    is 0 it is replaced by the prop, so a truthy width prop never gives a
    container of width 0. *)
Theorem width_falls_back_to_prop p l :
  originalWidth l = zero ->
  style_width (style (markup p l)) =
    lor (chartWidth (getChartDimensions p l)) (width p) /\
  style_width (style (markup p l)) = width p /\
  (isFullScreen (height p) = false ->
   useContainerWidth (element p) = false ->
   chartWidth (getChartDimensions p l) = zero) /\
  (width p <> zero -> style_width (style (markup p l)) <> zero).
Proof.
  intros Hzero.
  assert (style_width (style (markup p l)) = width p) as Hwidth.
  { apply markup_width_falsy. by rewrite Hzero. }
  repeat split; [done|..].
  - intros Hfull Hcontainer.
    unfold getChartDimensions; simpl. by rewrite Hfull, Hcontainer.
  - by rewrite Hwidth.
Qed.

Lemma width_falls_back_witness :
  style_width (style (markup Samples.inlineProps initLocals)) =
    lor (chartWidth (getChartDimensions Samples.inlineProps initLocals))
        (ofZ 704) /\
  style_width (style (markup Samples.inlineProps initLocals)) = ofZ 704 /\
  (isFullScreen (height Samples.inlineProps) = false ->
   useContainerWidth (element Samples.inlineProps) = false ->
   chartWidth (getChartDimensions Samples.inlineProps initLocals) = zero) /\
  (ofZ 704 <> zero ->
   style_width (style (markup Samples.inlineProps initLocals)) <> zero).
Proof.
  exact (width_falls_back_to_prop Samples.inlineProps initLocals eq_refl).
Defined.

(** A height of 0 and an absent height do not give the same element: the
    container's style height is 0 for the one, undefined for the other. *)
Lemma height_zero_differs_from_absent :
  GraphVizChart
    {| width := ofZ 704; element := Samples.graph; height := Some zero |} <>
  GraphVizChart
    {| width := ofZ 704; element := Samples.graph; height := None |}.
Proof.
  intros Hsame.
  apply (f_equal (fun rendered => style_height (style rendered))) in Hsame.
  rewrite !GraphVizChart_height in Hsame. discriminate Hsame.
Qed.

End GraphVizChartSpec.

(* ===================================================================== *)
(** * Properties of the queries *)
(* ===================================================================== *)

Module DomFacts.

Import Dom.

(** Induction on markup, with the hypothesis for every child. *)
Lemma Node_ind_children (P : Node -> Prop) :
  (forall data, P (Text data)) ->
  (forall tag testid children,
      Forall P children -> P (Element tag testid children)) ->
  forall n, P n.
Proof.
  intros Htext Helement. fix IH 1. intros [data|tag testid children].
  - apply Htext.
  - apply Helement. revert children. fix IHchildren 1.
    intros [|child children]; constructor.
    + apply IH.
    + apply IHchildren.
Qed.

Lemma queryAll_Element f tag testid children :
  queryAll f (Element tag testid children) =
    (if f (Element tag testid children)
     then [Element tag testid children] else []) ++
    flat_map (queryAll f) children.
Proof. reflexivity. Qed.

Lemma queryAll_here f n : f n = true -> In n (queryAll f n).
Proof. intros Hf. destruct n; simpl; rewrite Hf; by left. Qed.

Lemma queryAll_below f tag testid children child n :
  In child children -> In n (queryAll f child) ->
  In n (queryAll f (Element tag testid children)).
Proof.
  intros Hchild Hn. rewrite queryAll_Element. apply in_or_app. right.
  apply in_flat_map. by exists child.
Qed.

Lemma hasText_here s tag testid :
  hasText s (Element tag testid [Text s]) = true.
Proof. simpl. by rewrite String.eqb_refl. Qed.

(** A node found by its text shows that text. *)
Lemma queryAll_hasText_texts s n :
  queryAll (hasText s) n <> [] -> In s (texts n).
Proof.
  induction n as [data|tag testid children IH] using Node_ind_children;
    [done|].
  rewrite queryAll_Element. simpl texts.
  destruct (hasText s (Element tag testid children)) eqn:Hhere.
  - intros _. simpl in Hhere. apply existsb_exists in Hhere.
    destruct Hhere as (child & Hin & Htext).
    apply in_flat_map. exists child. split; [done|].
    destruct child as [data|]; [|done]. simpl in *.
    apply String.eqb_eq in Htext. by left.
  - simpl. clear Hhere. intros Hfound.
    induction IH as [|child children Hchild _ IHc]; [done|].
    simpl in *. apply in_or_app.
    destruct (queryAll (hasText s) child) eqn:Hq.
    + right. apply IHc. exact Hfound.
    + left. by apply Hchild.
Qed.

Lemma queryAllByText_texts s screen :
  queryAllByText s screen <> [] -> In s (flat_map texts screen).
Proof.
  unfold queryAllByText. induction screen as [|n screen IH]; [done|].
  simpl. intros Hfound. apply in_or_app.
  destruct (queryAll (hasText s) n) eqn:Hq.
  - right. by apply IH.
  - left. apply queryAll_hasText_texts. by rewrite Hq.
Qed.

End DomFacts.

(* ===================================================================== *)
(** * Properties of the DocString element *)
(* ===================================================================== *)

Module DocStringSpec.

Import Dom DomFacts DocString.

#[local] Ltac by_presence m :=
  unfold Member, optional;
  destruct (present (IMember.name m)), (present (IMember.type m)),
    (present (IMember.value m)); try discriminate; try reflexivity.

(** ** One member *)

Lemma Member_is_one_row m :
  queryAllByTestId "stMember" [Member m] = [Member m].
Proof. by_presence m. Qed.

Lemma Member_name m :
  queryAllByTestId "stMemberDocName" [Member m] =
    optional "span" "stMemberDocName" (IMember.name m).
Proof. by_presence m. Qed.

Lemma Member_type m :
  queryAllByTestId "stMemberDocType" [Member m] =
    optional "span" "stMemberDocType" (IMember.type m).
Proof. by_presence m. Qed.

Lemma Member_value m :
  queryAllByTestId "stMemberDocValue" [Member m] =
    if present (IMember.value m)
    then [Element "span" (Some "stMemberDocValue")
            [Text (text (IMember.value m))]]
    else [].
Proof. by_presence m. Qed.

Lemma Member_docString m :
  queryAllByTestId "stMemberDocString" [Member m] =
    if present (IMember.value m) then []
    else [Element "span" (Some "stMemberDocString")
            [Text (docs (IMember.docString m))]].
Proof. by_presence m. Qed.

Lemma Member_no_id id m :
  id <> "stMember" -> id <> "stMemberDocName" -> id <> "stMemberDocType" ->
  id <> "stMemberDocValue" -> id <> "stMemberDocString" ->
  queryAll (hasTestId id) (Member m) = [].
Proof.
  intros H1 H2 H3 H4 H5.
  apply not_eq_sym, String.eqb_neq in H1, H2, H3, H4, H5.
  unfold Member, optional.
  destruct (present (IMember.name m)), (present (IMember.type m)),
    (present (IMember.value m)); cbn -[String.eqb];
    by rewrite ?H1, ?H2, ?H3, ?H4, ?H5.
Qed.

(** With a value, the texts shown are taken from the name, the type and
    the value only. *)
Lemma Member_texts_with_value m :
  present (IMember.value m) = true ->
  forall s, In s (texts (Member m)) ->
    s = text (IMember.name m) \/ s = text (IMember.type m) \/
    s = text (IMember.value m).
Proof.
  intros Hvalue s. unfold Member, optional. rewrite Hvalue.
  destruct (present (IMember.name m)), (present (IMember.type m));
    simpl; intuition.
Qed.

(** C2.  A member with a value shows the value, in the one node tagged
    [stMemberDocValue], and does not show its docString: no node is
    tagged [stMemberDocString], the row is the same whatever the
    docString is, and any text found in it is the name, the type or the
    value. *)
Theorem member_value_suppresses_docString (m : IMember.t) :
  present (IMember.value m) = true ->
  queryAllByTestId "stMemberDocValue" [Member m] =
    [Element "span" (Some "stMemberDocValue")
       [Text (text (IMember.value m))]] /\
  In (Element "span" (Some "stMemberDocValue")
        [Text (text (IMember.value m))])
     (queryAllByText (text (IMember.value m)) [Member m]) /\
  queryAllByTestId "stMemberDocString" [Member m] = [] /\
  (forall docString,
     Member {| IMember.name := IMember.name m;
               IMember.type := IMember.type m;
               IMember.value := IMember.value m;
               IMember.docString := docString |} = Member m) /\
  (forall s, queryAllByText s [Member m] <> [] ->
     s = text (IMember.name m) \/ s = text (IMember.type m) \/
     s = text (IMember.value m)) /\
  (forall docString,
     IMember.docString m = Some docString ->
     docString <> text (IMember.name m) ->
     docString <> text (IMember.type m) ->
     docString <> text (IMember.value m) ->
     queryAllByText docString [Member m] = []).
Proof.
  intros Hvalue.
  assert (forall s, queryAllByText s [Member m] <> [] ->
            s = text (IMember.name m) \/ s = text (IMember.type m) \/
            s = text (IMember.value m)) as Htexts.
  { intros s Hfound. apply Member_texts_with_value; [done|].
    apply queryAllByText_texts in Hfound. simpl in Hfound.
    by rewrite app_nil_r in Hfound. }
  split; [|split; [|split; [|split; [|split]]]].
  - by rewrite Member_value, Hvalue.
  - unfold queryAllByText, Member. rewrite Hvalue.
    cbn [flat_map]. rewrite app_nil_r.
    eapply queryAll_below; [right; left; reflexivity|].
    eapply queryAll_below; [left; reflexivity|].
    apply queryAll_here, hasText_here.
  - by rewrite Member_docString, Hvalue.
  - intros docString. unfold Member; simpl. by rewrite Hvalue.
  - exact Htexts.
  - intros docString _ Hname Htype Hval.
    destruct (queryAllByText docString [Member m]) eqn:Hq; [done|].
    destruct (Htexts docString) as [H|[H|H]]; [by rewrite Hq|done..].
Qed.

(** C7.  A member with neither value nor docString shows the placeholder:
    the one node tagged [stMemberDocString] has the text "No docs
    available". *)
Theorem member_without_docs_shows_placeholder (m : IMember.t) :
  present (IMember.value m) = false ->
  present (IMember.docString m) = false ->
  let placeholder :=
    Element "span" (Some "stMemberDocString") [Text "No docs available"] in
  queryAllByTestId "stMemberDocString" [Member m] = [placeholder] /\
  In placeholder (queryAllByText "No docs available" [Member m]) /\
  queryAllByTestId "stMemberDocValue" [Member m] = [].
Proof.
  intros Hvalue Hdocs placeholder. split; [|split].
  - rewrite Member_docString, Hvalue. unfold docs. by rewrite Hdocs.
  - unfold queryAllByText, Member, docs. rewrite Hvalue, Hdocs.
    cbn [flat_map]. rewrite app_nil_r.
    eapply queryAll_below; [right; left; reflexivity|].
    eapply queryAll_below; [left; reflexivity|].
    apply queryAll_here, hasText_here.
  - by rewrite Member_value, Hvalue.
Qed.

(** C8.  The type node is there exactly when the member has a type;
    without it the row, the name and the docs cell are rendered all the
    same. *)
Theorem member_type_shown_iff_present (m : IMember.t) :
  (queryAllByTestId "stMemberDocType" [Member m] <> [] <->
     present (IMember.type m) = true) /\
  queryAllByTestId "stMemberDocType" [Member m] =
    (if present (IMember.type m)
     then [Element "span" (Some "stMemberDocType")
             [Text (text (IMember.type m))]]
     else []) /\
  queryAllByTestId "stMember" [Member m] = [Member m] /\
  queryAllByTestId "stMemberDocName" [Member m] =
    optional "span" "stMemberDocName" (IMember.name m) /\
  length (queryAllByTestId "stMemberDocValue" [Member m] ++
          queryAllByTestId "stMemberDocString" [Member m]) = 1.
Proof.
  split; [|split; [|split; [|split]]].
  - rewrite Member_type. unfold optional.
    destruct (present (IMember.type m)); split; done.
  - by rewrite Member_type.
  - apply Member_is_one_row.
  - apply Member_name.
  - rewrite Member_value, Member_docString.
    by destruct (present (IMember.value m)).
Qed.

Lemma member_value_witness :
  let m := Samples.member "member1" (Some "type1") (Some "value1")
             (Some "docstring1") in
  queryAllByTestId "stMemberDocValue" [Member m] =
    [Element "span" (Some "stMemberDocValue") [Text "value1"]] /\
  In (Element "span" (Some "stMemberDocValue") [Text "value1"])
     (queryAllByText "value1" [Member m]) /\
  queryAllByTestId "stMemberDocString" [Member m] = [] /\
  (forall docString,
     Member (Samples.member "member1" (Some "type1") (Some "value1")
               docString) = Member m) /\
  (forall s, queryAllByText s [Member m] <> [] ->
     s = "member1" \/ s = "type1" \/ s = "value1") /\
  (forall docString,
     Some "docstring1" = Some docString ->
     docString <> "member1" -> docString <> "type1" ->
     docString <> "value1" ->
     queryAllByText docString [Member m] = []).
Proof.
  exact (member_value_suppresses_docString
           (Samples.member "member1" (Some "type1") (Some "value1")
              (Some "docstring1")) eq_refl).
Defined.

Lemma member_placeholder_witness :
  let m := Samples.member "member1" (Some "type1") None None in
  let placeholder :=
    Element "span" (Some "stMemberDocString") [Text "No docs available"] in
  queryAllByTestId "stMemberDocString" [Member m] = [placeholder] /\
  In placeholder (queryAllByText "No docs available" [Member m]) /\
  queryAllByTestId "stMemberDocValue" [Member m] = [].
Proof.
  exact (member_without_docs_shows_placeholder
           (Samples.member "member1" (Some "type1") None None)
           eq_refl eq_refl).
Defined.

(** ** The whole element *)

Lemma rows_of_members id (ms : list IMember.t) :
  id <> "stMember" -> id <> "stMemberDocName" -> id <> "stMemberDocType" ->
  id <> "stMemberDocValue" -> id <> "stMemberDocString" ->
  flat_map (queryAll (hasTestId id)) (map Member ms) = [].
Proof.
  intros. induction ms as [|m ms IH]; [done|].
  cbn [map flat_map]. by rewrite IH, Member_no_id.
Qed.

Lemma rows_are_members (ms : list IMember.t) :
  flat_map (queryAll (hasTestId "stMember")) (map Member ms) =
    map Member ms.
Proof.
  induction ms as [|m ms IH]; [done|].
  cbn [map flat_map]. rewrite IH.
  pose proof (Member_is_one_row m) as Hrow.
  unfold queryAllByTestId in Hrow. cbn [flat_map] in Hrow.
  rewrite app_nil_r in Hrow. by rewrite Hrow.
Qed.

Lemma membersTable_table ms :
  queryAll (hasTestId "stDocstringMembersTable") (membersTable ms) =
    [membersTable ms].
Proof.
  unfold membersTable. rewrite queryAll_Element. cbn [flat_map].
  rewrite queryAll_Element, rows_of_members by done.
  reflexivity.
Qed.

Lemma membersTable_rows ms :
  queryAll (hasTestId "stMember") (membersTable ms) = map Member ms.
Proof.
  unfold membersTable. rewrite queryAll_Element. cbn [flat_map].
  rewrite queryAll_Element, rows_are_members.
  cbn. by rewrite app_nil_r.
Qed.

Lemma membersTable_no_container ms :
  queryAll (hasTestId "stDocstring") (membersTable ms) = [].
Proof.
  unfold membersTable. rewrite queryAll_Element. cbn [flat_map].
  by rewrite queryAll_Element, rows_of_members.
Qed.

Lemma DocString_parts element id :
  queryAllByTestId id (DocString element) =
    queryAllByTestId id (container_part element) ++
    queryAllByTestId id (table_part element).
Proof. unfold queryAllByTestId, DocString. apply flat_map_app. Qed.

Lemma container_part_has_no_rows element :
  queryAllByTestId "stDocstringMembersTable" (container_part element) = [] /\
  queryAllByTestId "stMember" (container_part element) = [].
Proof.
  unfold container_part, header, optional.
  destruct (present (name element)), (present (type element)),
    (present (value element)); split; reflexivity.
Qed.






(** C3.  The members table is rendered exactly when there are members;
    it is then the one node tagged [stDocstringMembersTable], and its
    rows, the nodes tagged [stMember], are the members' rows, one per
    member and in the order of the sequence.  Nothing else on the screen
    is a row. *)
Theorem members_table_iff_members (element : DocStringProto) :
  (queryAllByTestId "stDocstringMembersTable" (DocString element) <> [] <->
     members element <> []) /\
  queryAllByTestId "stDocstringMembersTable" (DocString element) =
    (match members element with
     | [] => []
     | _ :: _ => [membersTable (members element)]
     end) /\
  queryAllByTestId "stMember" [membersTable (members element)] =
    map Member (members element) /\
  queryAllByTestId "stMember" (DocString element) =
    map Member (members element).
Proof.
  destruct (container_part_has_no_rows element) as [Htable Hrows].
  assert (queryAllByTestId "stMember" [membersTable (members element)] =
            map Member (members element)) as Hin.
  { unfold queryAllByTestId. cbn [flat_map].
    by rewrite membersTable_rows, app_nil_r. }
  assert (queryAllByTestId "stDocstringMembersTable" (DocString element) =
            table_part element) as Hall.
  { rewrite DocString_parts, Htable. unfold table_part, queryAllByTestId.
    destruct (members element); [done|]. cbn [flat_map app].
    by rewrite membersTable_table. }
  split; [|split; [|split]].
  - rewrite Hall. unfold table_part. by destruct (members element).
  - exact Hall.
  - exact Hin.
  - rewrite DocString_parts, Hrows. unfold table_part.
    destruct (members element) eqn:Hms; [done|].
    rewrite <- Hms in *. exact Hin.
Qed.

End DocStringSpec.

(* ===================================================================== *)
(** * The cases of DocString.test.tsx *)
(* ===================================================================== *)

Module DocStringTests.

Import Dom DocString Samples.

#[local] Ltac run := repeat split; vm_compute; reflexivity.

(** "should render a doc-string" *)
Example renders_a_docString :
  length (queryAllByTestId "stDocstringDocstring" (DocString getProps)) = 1 /\
  length (queryAllByText "docstring" (DocString getProps)) = 1.
Proof. run. Qed.

(** "renders without crashing": the render of line 87, made while the
    suite is collected, is still on the screen beside the one of the
    test, and each shows its container. *)
Example renders_two_containers :
  length (queryAllByTestId "stDocstring"
            (DocString without_header ++ DocString getProps)) = 2 /\
  length (queryAllByTestId "stDocstring" (DocString getProps)) = 1.
Proof. run. Qed.

(** "should render 'no docs' text when empty" *)
Example renders_no_docs_text :
  let props :=
    {| name := name getProps; type := type getProps;
       value := value getProps; docString := None; members := [] |} in
  length (queryAllByTestId "stDocstring" (DocString props)) = 1 /\
  length (queryAllByTestId "stDocstringDocstring" (DocString props)) = 1 /\
  length (queryAllByText "No docs available" (DocString props)) = 1.
Proof. run. Qed.

(** "should render a name", "should render value", "should render a
    type" *)
Example renders_header :
  length (queryAllByTestId "stDocstringDocName" (DocString getProps)) = 1 /\
  length (queryAllByText "st.balloons" (DocString getProps)) = 1 /\
  length (queryAllByTestId "stDocstringDocValue" (DocString getProps)) = 1 /\
  length (queryAllByText "streamlit.balloons()" (DocString getProps)) = 1 /\
  length (queryAllByTestId "stDocstringDocType" (DocString getProps)) = 1 /\
  length (queryAllByText "method" (DocString getProps)) = 1.
Proof. run. Qed.

(** "should render empty when" there's no name, no value, no type: no
    header node is rendered.  The container is; the tests look for it on
    a screen that the clean-up after the first test has emptied. *)
Example renders_empty_without_header :
  queryAllByTestId "stDocstring" [] = [] /\
  length (queryAllByTestId "stDocstring" (DocString without_header)) = 1 /\
  queryAllByTestId "stDocstringDocName" (DocString without_header) = [] /\
  queryAllByTestId "stDocstringDocValue" (DocString without_header) = [] /\
  queryAllByTestId "stDocstringDocType" (DocString without_header) = [].
Proof. run. Qed.

(** "should render a type and value when there's no name" *)
Example renders_without_name :
  let props :=
    {| name := None; type := type getProps; value := value getProps;
       docString := docString getProps; members := [] |} in
  queryAllByTestId "stDocstringDocName" (DocString props) = [] /\
  length (queryAllByTestId "stDocstringDocType" (DocString props)) = 1 /\
  length (queryAllByText "method" (DocString props)) = 1 /\
  length (queryAllByTestId "stDocstringDocValue" (DocString props)) = 1 /\
  length (queryAllByText "streamlit.balloons()" (DocString props)) = 1.
Proof. run. Qed.

(** "should render a name and type when there's no value" *)
Example renders_without_value :
  let props :=
    {| name := name getProps; type := type getProps; value := None;
       docString := docString getProps; members := [] |} in
  queryAllByTestId "stDocstringDocValue" (DocString props) = [] /\
  length (queryAllByTestId "stDocstringDocName" (DocString props)) = 1 /\
  length (queryAllByText "st.balloons" (DocString props)) = 1 /\
  length (queryAllByTestId "stDocstringDocType" (DocString props)) = 1 /\
  length (queryAllByText "method" (DocString props)) = 1.
Proof. run. Qed.

(** "should render no members when there are none", "should render
    members" *)
Example renders_members :
  queryAllByTestId "stDocstringMembersTable" (DocString getProps) = [] /\
  length (queryAllByTestId "stDocstringMembersTable"
            (DocString with_members)) = 1 /\
  length (queryAllByTestId "stMember" (DocString with_members)) = 2.
Proof. run. Qed.

(** "should render value-oriented members" *)
Example renders_value_oriented_member :
  let row := [Member (member "member1" (Some "type1") (Some "value1") None)] in
  length (queryAllByTestId "stMemberDocValue" row) = 1 /\
  length (queryAllByText "value1" row) = 1 /\
  length (queryAllByTestId "stMemberDocName" row) = 1 /\
  length (queryAllByText "member1" row) = 1 /\
  length (queryAllByTestId "stMemberDocType" row) = 1 /\
  length (queryAllByText "type1" row) = 1.
Proof. run. Qed.

(** "should render doc-oriented members" *)
Example renders_doc_oriented_member :
  let row :=
    [Member (member "member1" (Some "type1") None (Some "docstring1"))] in
  length (queryAllByTestId "stMemberDocName" row) = 1 /\
  length (queryAllByText "member1" row) = 1 /\
  length (queryAllByTestId "stMemberDocType" row) = 1 /\
  length (queryAllByText "type1" row) = 1 /\
  length (queryAllByTestId "stMemberDocString" row) = 1 /\
  length (queryAllByText "docstring1" row) = 1.
Proof. run. Qed.

(** "should prefer value over doc" *)
Example prefers_value_over_doc :
  let row :=
    [Member (member "member1" (Some "type1") (Some "value1")
               (Some "docstring1"))] in
  length (queryAllByTestId "stMemberDocValue" row) = 1 /\
  length (queryAllByText "value1" row) = 1 /\
  length (queryAllByTestId "stMemberDocName" row) = 1 /\
  length (queryAllByTestId "stMemberDocType" row) = 1 /\
  queryAllByTestId "stMemberDocString" row = [] /\
  queryAllByText "docstring1" row = [].
Proof. run. Qed.

(** "should tell you when there are no docs" *)
Example tells_when_there_are_no_docs :
  let row := [Member (member "member1" (Some "type1") None None)] in
  length (queryAllByTestId "stMemberDocString" row) = 1 /\
  length (queryAllByText "No docs available" row) = 1.
Proof. run. Qed.

(** "should only show type if present" *)
Example shows_type_only_if_present :
  queryAllByTestId "stMemberDocType"
    [Member (member "member1" None None None)] = [].
Proof. run. Qed.

End DocStringTests.


(* ===================================================================== *)
(** * Further properties of GraphVizChart *)
(* ===================================================================== *)

Module GraphVizChartMore.

Import GraphVizChart JSFacts GraphVizChartSpec.

(** ** What the component returns *)

(** X1.  The element returned by the component is made of the props alone: the
    class name, the id built from the element id, and a style whose width
    and height are the width and height props.  The measures, the DOT
    spec and [useContainerWidth] have no part in it. *)
Theorem rendered_element_from_props (p : GraphVizChartProps) :
  GraphVizChart p =
    {| className := "graphviz stGraphVizChart";
       id := "graphviz-chart-" +:+ elementId (element p);
       style := {| style_width := width p; style_height := height p |} |} /\
  (forall e,
     elementId e = elementId (element p) ->
     GraphVizChart {| width := width p; element := e; height := height p |} =
     GraphVizChart p).
Proof.
  assert (forall q,
            GraphVizChart q =
              {| className := "graphviz stGraphVizChart";
                 id := "graphviz-chart-" +:+ elementId (element q);
                 style := {| style_width := width q;
                             style_height := height q |} |}) as Hshape.
  { intros q.
    pose proof (GraphVizChart_width q) as Hw.
    pose proof (GraphVizChart_height q) as Hh.
    unfold GraphVizChart, markup in *.
    cbn [style style_width style_height] in Hw, Hh.
    by rewrite Hw, Hh. }
  split; [apply Hshape|].
  intros e He. rewrite !Hshape. cbn [element width height]. by rewrite He.
Qed.

(** ** The chart dimensions *)

(** X2.  In full-screen mode the chart dimensions are the width and height
    props, whatever was measured: the fall-back of the height to the
    measured one is never taken. *)
Theorem full_screen_dimensions_are_the_props
    (p : GraphVizChartProps) (l : Locals) :
  isFullScreen (height p) = true ->
  exists h,
    height p = Some h /\
    getChartDimensions p l = {| chartWidth := width p; chartHeight := h |}.
Proof.
  intros Hfull. unfold getChartDimensions. rewrite Hfull.
  destruct (height p) as [h|] eqn:Hheight.
  - exists h. split; [done|].
    change (truthy h = true) in Hfull.
    unfold lor_undef_l. by rewrite Hfull.
  - change (truthy zero = true) in Hfull.
    by rewrite truthy_zero in Hfull.
Qed.

Lemma full_screen_dimensions_witness :
  exists h,
    height Samples.fullScreenProps = Some h /\
    getChartDimensions Samples.fullScreenProps
      {| originalHeight := ofZ 57; originalWidth := ofZ 123 |} =
      {| chartWidth := ofZ 1280; chartHeight := h |}.
Proof.
  exact (full_screen_dimensions_are_the_props Samples.fullScreenProps
           {| originalHeight := ofZ 57; originalWidth := ofZ 123 |} eq_refl).
Defined.

(** ** The [end] listener *)

Lemma onEnd_with_node {LibraryState : Type} toString listener
    (w : @World LibraryState) node :
  svg w !! chartId (listener_props listener) = Some node ->
  onEnd toString listener w =
    ((Normal
        (setSvgDimensions toString (listener_props listener) node
           (listener_locals listener)).1),
     {| library := library w;
        svg := <[chartId (listener_props listener) :=
                   (setSvgDimensions toString (listener_props listener) node
                      (listener_locals listener)).2]> (svg w);
        logged := logged w; listeners := listeners w |}).
Proof. intros Hnode. unfold onEnd. by rewrite Hnode. Qed.

Lemma onEnd_without_node {LibraryState : Type} toString listener
    (w : @World LibraryState) :
  svg w !! chartId (listener_props listener) = None ->
  onEnd toString listener w = (Throw (TypeError "node is null"), w).
Proof. intros Hnode. unfold onEnd. by rewrite Hnode. Qed.

(** X3.  The listener changes nothing but the SVG node of its own container,
    and of that node nothing but the [width] and [height] attributes: the
    log, the listeners, the library, every other container, the bounding
    box and every other attribute are as before. *)
Theorem end_listener_touches_only_its_svg_size
    {LibraryState : Type} (toString : number -> string)
    (listener : Listener) (w : @World LibraryState) :
  let own := chartId (listener_props listener) in
  let w' := (onEnd toString listener w).2 in
  library w' = library w /\
  logged w' = logged w /\
  listeners w' = listeners w /\
  (forall other, other <> own -> svg w' !! other = svg w !! other) /\
  (forall node,
     svg w !! own = Some node ->
     exists node',
       svg w' !! own = Some node' /\
       getBBox node' = getBBox node /\
       forall name, name <> "width" -> name <> "height" ->
         attributes node' !! name = attributes node !! name).
Proof.
  intros own w'. subst w'.
  destruct (svg w !! own) as [node|] eqn:Hnode.
  - unfold own in *. rewrite (onEnd_with_node _ _ _ _ Hnode). cbn [snd].
    pose proof (setSvgDimensions_spec toString (listener_props listener)
                  node (listener_locals listener)) as Hspec.
    destruct (setSvgDimensions toString (listener_props listener) node
                (listener_locals listener)) as [l' node'].
    cbv zeta in Hspec. destruct Hspec as (_ & _ & _ & _ & Hbox & Hattrs).
    repeat split; cbn.
    + intros other Hother. by rewrite lookup_insert_ne.
    + intros ? [= <-]. exists node'. rewrite lookup_insert_eq.
      repeat split; [done|]. intros name Hw Hh. by apply Hattrs.
  - unfold own in *. rewrite (onEnd_without_node _ _ _ Hnode). cbn [snd].
    repeat split. intros node Hsome. congruence.
Qed.

(** X5.  Charts with different element ids have different containers, and the
    listener of one leaves the SVG of the other alone. *)
Theorem end_listener_leaves_other_charts
    {LibraryState : Type} (toString : number -> string)
    (listener : Listener) (w : @World LibraryState)
    (other : GraphVizChartProps) :
  elementId (element other) <> elementId (element (listener_props listener)) ->
  chartId other <> chartId (listener_props listener) /\
  svg (onEnd toString listener w).2 !! chartId other =
    svg w !! chartId other.
Proof.
  intros Hids.
  assert (chartId other <> chartId (listener_props listener)) as Hchart.
  { unfold chartId. intros Hsame. apply Hids.
    by apply (inj (String.app _)) in Hsame. }
  split; [done|].
  destruct (svg w !! chartId (listener_props listener)) as [node|] eqn:Hnode.
  - rewrite (onEnd_with_node _ _ _ _ Hnode). cbn.
    by rewrite lookup_insert_ne.
  - by rewrite (onEnd_without_node _ _ _ Hnode).
Qed.

Lemma end_listener_other_chart_witness :
  chartId {| width := ofZ 704; element := Samples.otherGraph;
             height := None |} <>
    chartId Samples.fullScreenProps /\
  svg (onEnd Samples.printer
         {| listener_props := Samples.fullScreenProps;
            listener_locals := initLocals |}
         {| library := tt;
            svg := <["graphviz-chart-2" := Samples.rendered]>
                     (svg Samples.laidOut);
            logged := []; listeners := ∅ |}).2
    !! "graphviz-chart-2" = Some Samples.rendered.
Proof.
  refine (end_listener_leaves_other_charts Samples.printer
            {| listener_props := Samples.fullScreenProps;
               listener_locals := initLocals |}
            {| library := tt;
               svg := <["graphviz-chart-2" := Samples.rendered]>
                        (svg Samples.laidOut);
               logged := []; listeners := ∅ |}
            {| width := ofZ 704; element := Samples.otherGraph;
               height := None |} _).
  discriminate.
Defined.

(** ** Whole points *)

(** [Math.round] of a finite Number is the integer [Qfloor (q + 1/2)],
    as [-0] when that is zero and the argument is negative. *)
Lemma Math_round_finite (q : Qc) :
  let z := Qfloor (q + (1 # 2)) in
  Math_round (Finite q) = ofZ z \/ (z = 0%Z /\ Math_round (Finite q) = NegZero).
Proof.
  intros z. unfold Math_round. fold z.
  destruct (z =? 0)%Z eqn:Hz; [|by left].
  destruct (Qle_bool 0 q); [by left|].
  right. split; [by apply Z.eqb_eq|done].
Qed.

Lemma toStringIntegral_ofZ (z : Z) :
  (Z.abs z < 2 ^ 53)%Z -> toStringIntegral (ofZ z) = Some (pretty z).
Proof.
  intros Hz. unfold toStringIntegral, ofZ, ofQ, Q2Qc. cbn [this].
  rewrite inject_Z_Qred. cbn [Qnum Qden inject_Z].
  apply Z.ltb_lt in Hz. by rewrite Hz.
Qed.

Lemma toStringIntegral_round (q : Qc) :
  let z := Qfloor (q + (1 # 2)) in
  (Z.abs z < 2 ^ 53)%Z ->
  toStringIntegral (Math_round (Finite q)) = Some (pretty z).
Proof.
  intros z Hz. destruct (Math_round_finite q) as [->|[Hzero ->]].
  - by apply toStringIntegral_ofZ.
  - fold z in Hzero. by rewrite Hzero.
Qed.

(** X6.  In full-screen mode, with a finite bounding box whose sides round
    to safe integers (magnitude below 2^53), the [width] and [height]
    attributes are whole numbers of points: the decimal numeral of the
    integer nearest to the side of the box (a half goes up), followed by
    "pt". *)
Theorem full_screen_sizes_are_whole_points
    (toString : number -> string) (p : GraphVizChartProps)
    (node : SVGGraphicsElement) (l : Locals) (boxWidth boxHeight : Qc) :
  let zw := Qfloor (boxWidth + (1 # 2)) in
  let zh := Qfloor (boxHeight + (1 # 2)) in
  isFullScreen (height p) = true ->
  (forall n s, toStringIntegral n = Some s -> toString n = s) ->
  rect_width (getBBox node) = Finite boxWidth ->
  rect_height (getBBox node) = Finite boxHeight ->
  (Z.abs zw < 2 ^ 53)%Z ->
  (Z.abs zh < 2 ^ 53)%Z ->
  attributes (setSvgDimensions toString p node l).2 !! "width" =
    Some (pretty zw +:+ "pt") /\
  attributes (setSvgDimensions toString p node l).2 !! "height" =
    Some (pretty zh +:+ "pt") /\
  (inject_Z zw <= boxWidth + (1 # 2) /\
   boxWidth + (1 # 2) < inject_Z (zw + 1))%Q /\
  (inject_Z zh <= boxHeight + (1 # 2) /\
   boxHeight + (1 # 2) < inject_Z (zh + 1))%Q.
Proof.
  intros zw zh Hfull HtoString Hwidth Hheight Hzw Hzh.
  pose proof (setSvgDimensions_spec toString p node l) as Hspec.
  destruct (setSvgDimensions toString p node l) as [l' node'].
  cbv zeta in Hspec. destruct Hspec as (_ & _ & Haw & Hah & _).
  rewrite Hfull, Hwidth in Haw. rewrite Hfull, Hheight in Hah.
  rewrite (HtoString _ _ (toStringIntegral_round boxWidth Hzw)) in Haw.
  rewrite (HtoString _ _ (toStringIntegral_round boxHeight Hzh)) in Hah.
  repeat split; try done.
  - apply Qfloor_le.
  - apply Qlt_floor.
  - apply Qfloor_le.
  - apply Qlt_floor.
Qed.

Lemma printer_is_toString n s :
  toStringIntegral n = Some s -> Samples.printer n = s.
Proof. intros Hs. unfold Samples.printer. by rewrite Hs. Qed.

Lemma full_screen_sizes_witness :
  attributes
    (setSvgDimensions Samples.printer Samples.fullScreenProps
       Samples.rendered initLocals).2 !! "width" = Some "123pt" /\
  attributes
    (setSvgDimensions Samples.printer Samples.fullScreenProps
       Samples.rendered initLocals).2 !! "height" = Some "57pt" /\
  (inject_Z 123 <= Q2Qc (1234 # 10) + (1 # 2) /\
   Q2Qc (1234 # 10) + (1 # 2) < inject_Z 124)%Q /\
  (inject_Z 57 <= Q2Qc (565 # 10) + (1 # 2) /\
   Q2Qc (565 # 10) + (1 # 2) < inject_Z 58)%Q.
Proof.
  refine (full_screen_sizes_are_whole_points Samples.printer
            Samples.fullScreenProps Samples.rendered initLocals
            (Q2Qc (1234 # 10)) (Q2Qc (565 # 10))
            eq_refl printer_is_toString eq_refl eq_refl _ _);
    reflexivity.
Defined.

(** ** The effect on success, and what a later render leaves in place *)

Section MoreEffect.

Context {Graph LibraryState : Type}.
Variable toString : number -> string.
Variable graphviz :
  string -> LibraryState -> Completion Graph * LibraryState.
Variable renderDot :
  Graph -> string -> LibraryState -> Completion Graph * LibraryState.

#[local] Abbreviation layout := (GraphVizChart.layout graphviz renderDot).
#[local] Abbreviation effect := (GraphVizChart.effect graphviz renderDot).
#[local] Abbreviation mount := (GraphVizChart.mount graphviz renderDot).
#[local] Abbreviation update := (GraphVizChart.update graphviz renderDot).

Lemma effect_on_success p l (w : World) (g : Graph) :
  (layout p w).1 = Normal g ->
  exists w',
    effect p l w = (Normal None, w') /\
    listeners w' =
      <[chartId p := {| listener_props := p; listener_locals := l |}]>
        (listeners w).
Proof.
  intros Hok.
  destruct (layout_frame graphviz renderDot p w) as (_ & _ & Hlis).
  rewrite effect_unfold.
  destruct (layout p w) as [[g'|e] w1]; cbn [fst snd] in *; [|done].
  eexists. split; [reflexivity|]. cbn. by rewrite Hlis.
Qed.

(** X8.  A re-render that changes neither the width nor the DOT spec leaves
    the listener of the earlier render in place: it still closes over
    the earlier props.  So after a change of the height alone the SVG
    node is sized for the earlier mode, and after a change of the element
    id no layout is started for the new container id. *)
Theorem unchanged_deps_keep_the_old_listener
    prev next (w : World) (g : Graph) :
  let hook := {| memoizedDeps := effectDeps prev; destroy := None |} in
  let registered :=
    {| listener_props := prev; listener_locals := initLocals |} in
  let w1 := (mount prev w).2 in
  (layout prev w).1 = Normal g ->
  width next = width prev ->
  spec (element next) = spec (element prev) ->
  listeners w1 = <[chartId prev := registered]> (listeners w) /\
  update hook next w1 =
    (Normal (GraphVizChart next,
             {| memoizedDeps := effectDeps next; destroy := None |}), w1) /\
  id (GraphVizChart next) = chartId next /\
  (forall (w2 : @World LibraryState) node,
     svg w2 !! chartId prev = Some node ->
     exists node',
       svg (onEnd toString registered w2).2 !! chartId prev = Some node' /\
       attributes node' !! "width" =
         Some (if isFullScreen (height prev)
               then toString (Math_round (rect_width (getBBox node))) +:+ "pt"
               else "100%") /\
       attributes node' !! "height" =
         Some (if isFullScreen (height prev)
               then toString (Math_round (rect_height (getBBox node))) +:+ "pt"
               else "100%")).
Proof.
  intros hook registered w1 Hok Hwidth Hspec. subst w1.
  destruct (effect_on_success prev initLocals w g Hok)
    as (w' & Heff & Hlis).
  rewrite mount_unfold, Heff. cbn [snd].
  split; [exact Hlis|]. split; [|split; [done|]].
  - assert (effectRuns hook next = false) as Hruns.
    { destruct (effectRuns hook next) eqn:Hruns; [|done].
      apply (effectRuns_iff hook prev next eq_refl) in Hruns.
      destruct Hruns; congruence. }
    unfold GraphVizChart.update. rewrite Hruns. reflexivity.
  - intros w2 node Hnode.
    rewrite (onEnd_with_node toString registered w2 node Hnode).
    cbn [snd svg listener_props listener_locals registered].
    rewrite lookup_insert_eq.
    pose proof (setSvgDimensions_spec toString prev node initLocals) as Hs.
    destruct (setSvgDimensions toString prev node initLocals) as [l' node'].
    cbv zeta in Hs. destruct Hs as (_ & _ & Haw & Hah & _).
    by exists node'.
Qed.

(** X9.  A re-render whose width or DOT spec changed and whose layout throws
    does not throw either: the new markup is returned, the exception is
    logged, and the listeners and the SVG of the earlier render stay as
    they were. *)
Theorem rerender_exception_keeps_earlier_layout
    prev next (w : World) (e : Exception) :
  let hook := {| memoizedDeps := effectDeps prev; destroy := None |} in
  width next <> width prev \/ spec (element next) <> spec (element prev) ->
  (layout next w).1 = Throw e ->
  exists w',
    update hook next w =
      (Normal (GraphVizChart next,
               {| memoizedDeps := effectDeps next; destroy := None |}),
       w') /\
    logged w' = logged w ++ [e] /\
    listeners w' = listeners w /\
    svg w' = svg w.
Proof.
  intros hook Hchanged Hthrow.
  apply (effectRuns_iff hook prev next eq_refl) in Hchanged.
  destruct (layout_frame graphviz renderDot next w) as (Hlog & Hsvg & Hlis).
  unfold GraphVizChart.update. rewrite Hchanged.
  unfold mbind, M_bind, mret, M_ret. cbn [destroy hook].
  rewrite effect_unfold.
  destruct (layout next w) as [[g|e'] w1]; cbn [fst snd] in *; [done|].
  injection Hthrow as ->.
  eexists. split; [reflexivity|]. cbn. by rewrite Hlog, Hsvg, Hlis.
Qed.

End MoreEffect.

Lemma rerender_exception_witness :
  let next :=
    {| width := ofZ 704;
       element := {| elementId := "1"; spec := "digraph {";
                     useContainerWidth := false |};
       height := None |} in
  exists w',
    update Samples.failing_graphviz Samples.failing_renderDot
      {| memoizedDeps := effectDeps Samples.inlineProps; destroy := None |}
      next Samples.laidOut =
      (Normal (GraphVizChart next,
               {| memoizedDeps := effectDeps next; destroy := None |}),
       w') /\
    logged w' = [Thrown "syntax error in line 1"] /\
    listeners w' = ∅ /\
    svg w' = {[ "graphviz-chart-1" := Samples.rendered ]}.
Proof.
  refine (rerender_exception_keeps_earlier_layout
            Samples.failing_graphviz Samples.failing_renderDot
            Samples.inlineProps
            {| width := ofZ 704;
               element := {| elementId := "1"; spec := "digraph {";
                             useContainerWidth := false |};
               height := None |}
            Samples.laidOut (Thrown "syntax error in line 1") _ eq_refl).
  right. discriminate.
Defined.

(** From inline to full screen at the same width: the SVG node is still
    sized at 100%. *)
Lemma unchanged_deps_witness :
  let next :=
    {| width := ofZ 704; element := Samples.graph;
       height := Some (ofZ 720) |} in
  let registered :=
    {| listener_props := Samples.inlineProps;
       listener_locals := initLocals |} in
  let w1 :=
    (mount Samples.working_graphviz Samples.working_renderDot
       Samples.inlineProps Samples.idle).2 in
  listeners w1 = {[ "graphviz-chart-1" := registered ]} /\
  update Samples.working_graphviz Samples.working_renderDot
    {| memoizedDeps := effectDeps Samples.inlineProps; destroy := None |}
    next w1 =
    (Normal (GraphVizChart next,
             {| memoizedDeps := effectDeps next; destroy := None |}), w1) /\
  id (GraphVizChart next) = "graphviz-chart-1" /\
  (forall (w2 : @World unit) node,
     svg w2 !! "graphviz-chart-1" = Some node ->
     exists node',
       svg (onEnd Samples.printer registered w2).2 !! "graphviz-chart-1" =
         Some node' /\
       attributes node' !! "width" = Some "100%" /\
       attributes node' !! "height" = Some "100%").
Proof.
  exact (unchanged_deps_keep_the_old_listener Samples.printer
           Samples.working_graphviz Samples.working_renderDot
           Samples.inlineProps
           {| width := ofZ 704; element := Samples.graph;
              height := Some (ofZ 720) |}
           Samples.idle tt eq_refl eq_refl eq_refl).
Defined.

End GraphVizChartMore.
